(** * Verification of mesh-networking [filters.py]

    A shallow embedding of the packet filters of [filters.py]
    (DuplicateFilter, LoopbackFilter, UniqueFilter, StringFilter) under
    Python 3 semantics.  Packets are [bytes] (or [None]); the dictionaries
    of the filters are [collections.defaultdict]s, whose [__getitem__]
    inserts the default for a missing key; Python [str] and [bytes] are
    distinct values that never compare equal. *)

From Stdlib Require Import ZArith Strings.Byte.
From stdpp Require Import base gmap sets list strings.

Open Scope Z_scope.

(* ------------------------------------------------------------------ *)
(** ** Python values *)

(** Python [bytes]. *)
Abbreviation bytes := (list Byte.byte).

#[global] Instance byte_eq_dec : EqDecision Byte.byte := Byte.byte_eq_dec.
#[global] Program Instance byte_countable : Countable Byte.byte :=
  inj_countable Byte.to_N Byte.of_N _.
Next Obligation. intros b. apply Byte.of_to_N. Qed.

(** A Python object as stored in the filters' containers: a [str] or a
    [bytes].  [str] objects are modelled by Rocq strings whose characters
    are the code points 0..255. *)
Inductive pyobj :=
| PyStr (s : string)
| PyBytes (b : bytes).

#[global] Instance pyobj_eq_dec : EqDecision pyobj.
Proof. solve_decision. Defined.

#[global] Program Instance pyobj_countable : Countable pyobj :=
  inj_countable
    (fun o => match o with PyStr s => inl s | PyBytes b => inr b end)
    (fun x => match x with inl s => Some (PyStr s) | inr b => Some (PyBytes b) end)
    _.
Next Obligation. intros [s|b]; reflexivity. Qed.

(** Python [==] between two objects: a [str] never equals a [bytes]. *)
Definition py_eqb (x y : pyobj) : bool := bool_decide (x = y).

(** A packet argument or result: [None] or a [bytes] object. *)
Abbreviation packet := (option bytes).

(** Python's [not packet]: [None] and [b""] are falsy. *)
Definition py_not (p : packet) : bool :=
  match p with
  | None => true
  | Some [] => true
  | Some (_ :: _) => false
  end.

(** Interfaces are the node's interface names. *)
Abbreviation iface := string.

(** A [bytes] literal [b"..."] of ASCII text. *)
Definition b_ (s : string) : bytes := map Ascii.byte_of_ascii (String.list_ascii_of_string s).

(** [defaultdict.__getitem__]: a missing key is inserted with the default. *)
Definition dd_getitem {K V} `{Countable K} (dflt : V) (k : K) (m : gmap K V)
  : V * gmap K V :=
  match m !! k with
  | Some v => (v, m)
  | None => (dflt, <[k := dflt]> m)
  end.

(* ------------------------------------------------------------------ *)
(** ** DuplicateFilter *)

Module DuplicateFilter.

(** [self.last_sent] and [self.last_recv], both [defaultdict(str)]. *)
Record t := mk { last_sent : gmap iface pyobj; last_recv : gmap iface pyobj }.

(** [__init__] *)
Definition init : t := mk ∅ ∅.

(** [defaultdict(str)] default: the empty [str]. *)
Definition dflt : pyobj := PyStr "".

(** The value [d[interface]] reads, without the insertion side effect. *)
Definition get (m : gmap iface pyobj) (i : iface) : pyobj :=
  default dflt (m !! i).

(** [tr(self, packet, interface)] *)
Definition tr (s : t) (p : packet) (i : iface) : packet * t :=
  if py_not p then (None, s)
  else
    let pb := default [] p in
    let '(last, lr) := dd_getitem dflt i (last_recv s) in
    if py_eqb (PyBytes pb) last then (None, mk (last_sent s) lr)
    else (p, mk (last_sent s) (<[i := PyBytes pb]> lr)).

(** [tx(self, packet, interface)] *)
Definition tx (s : t) (p : packet) (i : iface) : packet * t :=
  if py_not p then (None, s)
  else
    let pb := default [] p in
    let '(last, ls) := dd_getitem dflt i (last_sent s) in
    if py_eqb (PyBytes pb) last then (None, mk ls (last_recv s))
    else (p, mk (<[i := PyBytes pb]> ls) (last_recv s)).

End DuplicateFilter.

(* ------------------------------------------------------------------ *)
(** ** [str.encode('utf-8')] and [hashlib.md5(...).hexdigest()] *)

(** UTF-8 encoding of a [str] whose code points are below 256. *)
Definition utf8_char (c : Ascii.ascii) : list Z :=
  let n := Z.of_nat (Ascii.nat_of_ascii c) in
  if n <? 128 then [n] else [192 + n / 64; 128 + n mod 64].

Definition encode_utf8 (s : string) : list Z :=
  concat (map utf8_char (String.list_ascii_of_string s)).

Definition bytes_of_Z (l : list Z) : bytes :=
  map (fun z => default Byte.x00 (Byte.of_N (Z.to_N z))) l.

Definition Z_of_bytes (b : bytes) : list Z := map (fun x => Z.of_N (Byte.to_N x)) b.

Module Md5.

Definition w32 : Z := 4294967296.
Definition add32 (a b : Z) : Z := (a + b) mod w32.
Definition not32 (x : Z) : Z := Z.lxor x (w32 - 1).
Definition rotl32 (x : Z) (c : Z) : Z :=
  Z.lor ((Z.shiftl x c) mod w32) (Z.shiftr x (32 - c)).

(** Per-round shift amounts. *)
Definition S_tab : list Z :=
  [7;12;17;22; 7;12;17;22; 7;12;17;22; 7;12;17;22;
   5;9;14;20; 5;9;14;20; 5;9;14;20; 5;9;14;20;
   4;11;16;23; 4;11;16;23; 4;11;16;23; 4;11;16;23;
   6;10;15;21; 6;10;15;21; 6;10;15;21; 6;10;15;21].

(** K[i] = floor(|sin(i+1)| * 2^32). *)
Definition K_tab : list Z :=
  [3614090360; 3905402710; 606105819; 3250441966; 4118548399; 1200080426;
   2821735955; 4249261313; 1770035416; 2336552879; 4294925233; 2304563134;
   1804603682; 4254626195; 2792965006; 1236535329; 4129170786; 3225465664;
   643717713; 3921069994; 3593408605; 38016083; 3634488961; 3889429448;
   568446438; 3275163606; 4107603335; 1163531501; 2850285829; 4243563512;
   1735328473; 2368359562; 4294588738; 2272392833; 1839030562; 4259657740;
   2763975236; 1272893353; 4139469664; 3200236656; 681279174; 3936430074;
   3572445317; 76029189; 3654602809; 3873151461; 530742520; 3299628645;
   4096336452; 1126891415; 2878612391; 4237533241; 1700485571; 2399980690;
   4293915773; 2240044497; 1873313359; 4264355552; 2734768916; 1309151649;
   4149444226; 3174756917; 718787259; 3951481745].

Record st := mkst { A : Z; B : Z; C : Z; D : Z }.

Definition init : st := mkst 1732584193 4023233417 2562383102 271733878.

(** Round function value and message-word index of step [i]. *)
Definition fg (i : nat) (b c d : Z) : Z * nat :=
  if (i <? 16)%nat then (Z.lor (Z.land b c) (Z.land (not32 b) d), i)
  else if (i <? 32)%nat then (Z.lor (Z.land d b) (Z.land (not32 d) c), (5 * i + 1) mod 16)%nat
  else if (i <? 48)%nat then (Z.lxor b (Z.lxor c d), (3 * i + 5) mod 16)%nat
  else (Z.lxor c (Z.lor b (not32 d)), (7 * i) mod 16)%nat.

Definition step (M : list Z) (i : nat) (s : st) : st :=
  let '(f, g) := fg i (B s) (C s) (D s) in
  let f := add32 (add32 (add32 f (A s)) (nth i K_tab 0)) (nth g M 0) in
  mkst (D s) (add32 (B s) (rotl32 f (nth i S_tab 0))) (B s) (C s).

Fixpoint steps (M : list Z) (n i : nat) (s : st) : st :=
  match n with
  | O => s
  | S n' => steps M n' (S i) (step M i s)
  end.

(** Little-endian 32-bit words of a 64-byte chunk. *)
Fixpoint words (fuel : nat) (l : list Z) : list Z :=
  match fuel, l with
  | S f, b0 :: b1 :: b2 :: b3 :: rest =>
      (b0 + 256 * b1 + 65536 * b2 + 16777216 * b3) :: words f rest
  | _, _ => []
  end.

Definition block (s : st) (chunk : list Z) : st :=
  let s' := steps (words 16 chunk) 64 0 s in
  mkst (add32 (A s) (A s')) (add32 (B s) (B s')) (add32 (C s) (C s')) (add32 (D s) (D s')).

Fixpoint le_bytes (n : nat) (x : Z) : list Z :=
  match n with
  | O => []
  | S n' => (x mod 256) :: le_bytes n' (x / 256)
  end.

(** Padding: 0x80, zeros up to 56 mod 64, then the bit length (64-bit LE). *)
Definition pad (msg : list Z) : list Z :=
  let len := Z.of_nat (length msg) in
  msg ++ [128] ++ repeat 0 (Z.to_nat ((55 - len) mod 64))
      ++ le_bytes 8 ((8 * len) mod 2 ^ 64).

Fixpoint blocks (fuel : nat) (s : st) (l : list Z) : st :=
  match fuel with
  | O => s
  | S f => blocks f (block s (take 64 l)) (drop 64 l)
  end.

Definition digest (msg : list Z) : list Z :=
  let p := pad msg in
  let s := blocks (length p / 64) init p in
  le_bytes 4 (A s) ++ le_bytes 4 (B s) ++ le_bytes 4 (C s) ++ le_bytes 4 (D s).

Definition hex_digit (n : Z) : Ascii.ascii :=
  nth (Z.to_nat n) (String.list_ascii_of_string "0123456789abcdef") Ascii.zero.

(** [hexdigest()]: two lowercase hex digits per digest byte. *)
Definition hexdigest (msg : list Z) : string :=
  String.string_of_list_ascii
    (concat (map (fun b => [hex_digit (b / 16); hex_digit (b mod 16)]) (digest msg))).

End Md5.

(* ------------------------------------------------------------------ *)
(** ** Python's built-in [hash] on [bytes] (CPython, [siphash13]) *)

Module PyHash.

Definition w64 : Z := 18446744073709551616.
Definition add64 (a b : Z) : Z := (a + b) mod w64.
Definition rotl64 (x c : Z) : Z :=
  Z.lor ((Z.shiftl x c) mod w64) (Z.shiftr x (64 - c)).

(** [HALF_ROUND(a,b,c,d,s,t)] *)
Definition half_round (a b c d s t : Z) : Z * Z * Z * Z :=
  let a := add64 a b in
  let c := add64 c d in
  let b := Z.lxor (rotl64 b s) a in
  let d := Z.lxor (rotl64 d t) c in
  (rotl64 a 32, b, c, d).

(** [SINGLE_ROUND(v0,v1,v2,v3)] *)
Definition single_round (v : Z * Z * Z * Z) : Z * Z * Z * Z :=
  let '(v0, v1, v2, v3) := v in
  let '(v0, v1, v2, v3) := half_round v0 v1 v2 v3 13 16 in
  let '(v2, v1, v0, v3) := half_round v2 v1 v0 v3 17 21 in
  (v0, v1, v2, v3).

Fixpoint le_word (l : list Z) : Z :=
  match l with
  | [] => 0
  | x :: r => x + 256 * le_word r
  end.

(** The [while (src_sz >= 8)] loop. *)
Fixpoint compress (fuel : nat) (v : Z * Z * Z * Z) (l : list Z)
  : (Z * Z * Z * Z) * list Z :=
  match fuel with
  | O => (v, l)
  | S f =>
      if (8 <=? length l)%nat then
        let mi := le_word (take 8 l) in
        let '(v0, v1, v2, v3) := v in
        let '(v0, v1, v2, v3) := single_round (v0, v1, v2, Z.lxor v3 mi) in
        compress f (Z.lxor v0 mi, v1, v2, v3) (drop 8 l)
      else (v, l)
  end.

Definition siphash13 (k0 k1 : Z) (src : list Z) : Z :=
  let b := (Z.shiftl (Z.of_nat (length src)) 56) mod w64 in
  let v := (Z.lxor k0 8317987319222330741, Z.lxor k1 7237128888997146477,
            Z.lxor k0 7816392313619706465, Z.lxor k1 8387220255154660723) in
  let '(v, rest) := compress (length src) v src in
  let b := Z.lor b (le_word rest) in
  let '(v0, v1, v2, v3) := v in
  let '(v0, v1, v2, v3) := single_round (v0, v1, v2, Z.lxor v3 b) in
  let v := (Z.lxor v0 b, v1, Z.lxor v2 255, v3) in
  let '(v0, v1, v2, v3) := single_round (single_round (single_round v)) in
  Z.lxor (Z.lxor v0 v1) (Z.lxor v2 v3).

(** The per-process hash secret [(k0, k1)]. *)
Record secret := mksecret { k0 : Z; k1 : Z }.

(** [lcg_urandom(x0, buffer, size)] *)
Fixpoint lcg (n : nat) (x : Z) : list Z :=
  match n with
  | O => []
  | S n' =>
      let x := (x * 214013 + 2531011) mod 4294967296 in
      (Z.land (Z.shiftr x 16) 255) :: lcg n' x
  end.

(** [_Py_HashRandomization_Init] with [PYTHONHASHSEED=seed]: 0 disables
    randomization (all-zero secret), otherwise the LCG fills it. *)
Definition secret_of_seed (seed : Z) : secret :=
  if seed =? 0 then mksecret 0 0
  else let buf := lcg 24 seed in
       mksecret (le_word (take 8 buf)) (le_word (take 8 (drop 8 buf))).

(** [_Py_HashBytes]: [hash(b"")] is 0, [-1] is reserved. *)
Definition hash_bytes (k : secret) (b : bytes) : Z :=
  match b with
  | [] => 0
  | _ =>
      let x := siphash13 (k0 k) (k1 k) (Z_of_bytes b) in
      let x := if x >=? 9223372036854775808 then x - w64 else x in
      if x =? -1 then -2 else x
  end.

End PyHash.

(* ------------------------------------------------------------------ *)
(** ** LoopbackFilter *)

Module LoopbackFilter.

(** [self.sent_hashes], a [defaultdict(int)] keyed by [hash(packet)]. *)
Record t := mk { sent_hashes : gmap Z Z }.

Definition init : t := mk ∅.

Section WithHash.

(** Python's [hash] in the running process. *)
Variable hash : bytes -> Z.

(** [tr(self, packet, interface)] *)
Definition tr (s : t) (p : packet) (i : iface) : packet * t :=
  if py_not p then (None, s)
  else
    let pb := default [] p in
    let '(c, m) := dd_getitem 0 (hash pb) (sent_hashes s) in
    if 0 <? c then
      (* [self.sent_hashes[hash(packet)] -= 1] *)
      let '(c', m') := dd_getitem 0 (hash pb) m in
      (None, mk (<[hash pb := c' - 1]> m'))
    else (p, mk m).

(** [tx(self, packet, interface)] *)
Definition tx (s : t) (p : packet) (i : iface) : packet * t :=
  if py_not p then (None, s)
  else
    let pb := default [] p in
    let '(c, m) := dd_getitem 0 (hash pb) (sent_hashes s) in
    (p, mk (<[hash pb := c + 1]> m)).

(** A call made by the node on the filter. *)
Inductive op := OpTr (p : packet) (i : iface) | OpTx (p : packet) (i : iface).

Definition step (s : t) (o : op) : packet * t :=
  match o with
  | OpTr p i => tr s p i
  | OpTx p i => tx s p i
  end.

(** The filter's state after a sequence of calls. *)
Definition run (s : t) (ops : list op) : t :=
  fold_left (fun s o => snd (step s o)) ops s.

(** The pending count read for bucket [h]. *)
Definition count (s : t) (h : Z) : Z := default 0 (sent_hashes s !! h).

(** Does call [o] send a packet of bucket [h]? *)
Definition sends_to (h : Z) (o : op) : bool :=
  match o with
  | OpTx p _ => negb (py_not p) && bool_decide (hash (default [] p) = h)
  | OpTr _ _ => false
  end.

(** The number of receives in [ops], run from [s], that return [None]
    for a non-empty packet of bucket [h] (absorbed echoes). *)
Fixpoint suppressed (h : Z) (s : t) (ops : list op) : nat :=
  match ops with
  | [] => O
  | o :: ops' =>
      let '(r, s') := step s o in
      ((match o, r with
        | OpTr p _, None => if negb (py_not p) && bool_decide (hash (default [] p) = h) then 1 else 0
        | _, _ => 0
        end) + suppressed h s' ops')%nat
  end.

End WithHash.

End LoopbackFilter.

(* ------------------------------------------------------------------ *)
(** ** UniqueFilter *)

(** [str(n)] for a non-negative integer. *)
Fixpoint dec_digits (fuel : nat) (n : Z) (acc : string) : string :=
  match fuel with
  | O => acc
  | S f =>
      let acc := String (Md5.hex_digit (n mod 10)) acc in
      if n <? 10 then acc else dec_digits f (n / 10) acc
  end.

Definition py_str_int (n : Z) : string := dec_digits 64 n "".

Module UniqueFilter.

(** [self.seen] and [self.our_id]. *)
Record t := mk { seen : gset pyobj; our_id : string }.

(** [__init__], where [r] is the value of [random.randint(10000, 99999)]. *)
Definition init (r : Z) : t := mk ∅ (py_str_int r).

Definition marker : bytes := b_ "HASH:".

(** [self.seen.add(u)] *)
Definition add (u : pyobj) (s : t) : t := mk ({[u]} ∪ seen s) (our_id s).

(** [tr(self, packet, interface)]; falling off the end returns [None]. *)
Definition tr (s : t) (p : packet) (i : iface) : packet * t :=
  if py_not p then (None, s)
  else
    let pb := default [] p in
    if bool_decide (marker = take 5 pb) then
      let packet_uuid := PyBytes (take 32 (drop 5 pb)) in
      if bool_decide (packet_uuid ∈ seen s) then (None, s)
      else (p, add packet_uuid s)
    else (None, s).

(** The identifier of a locally originated packet:
    [__md5__(self.our_id + str(interface) + str(time.time()))], where
    [now] is the text [str(time.time())] at the call. *)
Definition fresh_uuid (s : t) (i : iface) (now : string) : string :=
  Md5.hexdigest (encode_utf8 (our_id s +:+ i +:+ now)).

(** [tx(self, packet, interface)] *)
Definition tx (s : t) (p : packet) (i : iface) (now : string) : packet * t :=
  if py_not p then (None, s)
  else
    let pb := default [] p in
    if bool_decide (marker = take 5 pb) then
      (p, add (PyBytes (take 32 (drop 5 pb))) s)
    else
      let packet_uuid := fresh_uuid s i now in
      (Some (marker ++ bytes_of_Z (encode_utf8 packet_uuid) ++ b_ "; " ++ pb),
       add (PyStr packet_uuid) s).

End UniqueFilter.

(* ------------------------------------------------------------------ *)
(** ** StringFilter *)

(** Exceptions raised by the modelled code. *)
Inductive exn := TypeError.

(** [pat] occurs in [l] as a contiguous run. *)
Fixpoint is_substring (pat l : bytes) : bool :=
  bool_decide (take (length pat) l = pat) ||
  match l with
  | [] => false
  | _ :: l' => is_substring pat l'
  end.

(** [x in container] for a [bytes] container: a [bytes] pattern is a
    substring test, a [str] pattern raises [TypeError]. *)
Definition py_in_bytes (x : pyobj) (container : bytes) : exn + bool :=
  match x with
  | PyBytes b => inr (is_substring b container)
  | PyStr _ => inl TypeError
  end.

Module StringFilter.

(** The class attributes [pattern] and [inverse] of [DefinedStringFilter]. *)
Record t := mk { pattern : pyobj; inverse : bool }.

(** [StringFilter.match(pattern, inverse=False)] *)
Definition match_ (pattern : pyobj) (inverse : bool) : t := mk pattern inverse.

(** [StringFilter.dontmatch(pattern)] *)
Definition dontmatch (pattern : pyobj) : t := match_ pattern true.

(** [tr(self, packet, interface)] *)
Definition tr (f : t) (p : packet) (i : iface) : exn + packet :=
  if py_not p then inr None
  else
    let pb := default [] p in
    match py_in_bytes (pattern f) pb with
    | inl e => inl e
    | inr found =>
        if negb (inverse f) then inr (if found then p else None)
        else inr (if negb found then p else None)
    end.

(** [tx] is inherited from [BaseFilter]: identity. *)
Definition tx (f : t) (p : packet) (i : iface) : exn + packet := inr p.

End StringFilter.


(* ------------------------------------------------------------------ *)
(** ** Executable checks of the model against CPython *)

Example dup_demo :
  let '(r1, s1) := DuplicateFilter.tr DuplicateFilter.init (Some (b_ "abc")) "eth0" in
  let '(r2, _) := DuplicateFilter.tr s1 (Some (b_ "abc")) "eth0" in
  r1 = Some (b_ "abc") /\ r2 = None.
Proof. vm_compute. auto. Qed.

Example md5_empty : Md5.hexdigest [] = "d41d8cd98f00b204e9800998ecf8427e".
Proof. vm_compute. reflexivity. Qed.

Example md5_sample : Md5.hexdigest (encode_utf8 "12345eth01700000000.123") = "0bb2fed5189bd56485e16938af341560".
Proof. vm_compute. reflexivity. Qed.

Example md5_long : Md5.hexdigest (repeat 120 100) = "aed563ecafb4bcc5654c597a421547b2".
Proof. vm_compute. reflexivity. Qed.

Example pyhash_seed0 :
  PyHash.hash_bytes (PyHash.secret_of_seed 0) (b_ "hi") = 4881310999729328475 /\
  PyHash.hash_bytes (PyHash.secret_of_seed 0) (b_ "abcdefgh") = 4574395652268504554 /\
  PyHash.hash_bytes (PyHash.secret_of_seed 0) (b_ "hello world!!xyz1") = -457990233536820159.
Proof. vm_compute. auto. Qed.

Example pyhash_seed1 :
  PyHash.hash_bytes (PyHash.secret_of_seed 1) (b_ "hi") = 391634985880495026 /\
  PyHash.hash_bytes (PyHash.secret_of_seed 1) (b_ "abcdefgh") = -202642195356325900 /\
  PyHash.hash_bytes (PyHash.secret_of_seed 1) (b_ "hello world!!xyz1") = -5489896059611651299.
Proof. vm_compute. auto. Qed.

Example unique_demo :
  let s := UniqueFilter.init 12345 in
  let '(out, s1) := UniqueFilter.tx s (Some (b_ "hi")) "eth0" "1700000000.123" in
  out = Some (b_ "HASH:0bb2fed5189bd56485e16938af341560; hi") /\
  fst (UniqueFilter.tr s1 out "eth0") = out.
Proof. vm_compute. auto. Qed.

Example string_demo :
  StringFilter.tr (StringFilter.match_ (PyBytes (b_ "foo")) false) (Some (b_ "xfoox")) "eth0"
    = inr (Some (b_ "xfoox")) /\
  StringFilter.tr (StringFilter.match_ (PyStr "foo") false) (Some (b_ "xfoox")) "eth0"
    = inl TypeError.
Proof. vm_compute. auto. Qed.

(* ------------------------------------------------------------------ *)
(** ** Shared lemmas *)

Lemma py_not_some (p : bytes) : p <> [] -> py_not (Some p) = false.
Proof. destruct p; [congruence | reflexivity]. Qed.

Lemma default_some {A} (d x : A) : default d (Some x) = x.
Proof. reflexivity. Qed.

Lemma py_not_marker (rest : bytes) : py_not (Some (UniqueFilter.marker ++ rest)) = false.
Proof. reflexivity. Qed.

Lemma seen_add (x : pyobj) (s : UniqueFilter.t) :
  UniqueFilter.seen (UniqueFilter.add x s) = {[x]} ∪ UniqueFilter.seen s.
Proof. reflexivity. Qed.

Lemma seen_init (r : Z) : UniqueFilter.seen (UniqueFilter.init r) = ∅.
Proof. reflexivity. Qed.

Lemma take_app_marker (rest : bytes) :
  take 5 (UniqueFilter.marker ++ rest) = UniqueFilter.marker.
Proof. reflexivity. Qed.

Lemma drop_app_marker (rest : bytes) :
  drop 5 (UniqueFilter.marker ++ rest) = rest.
Proof. reflexivity. Qed.

(* ------------------------------------------------------------------ *)
(** ** Empty packets (C10) *)

(** C10: the empty-but-present packet [b""] is dropped like [None] by
    every receive and send of DuplicateFilter, LoopbackFilter and
    UniqueFilter, and by StringFilter's receive, for every interface,
    filter state, hash secret, timestamp and filter configuration; the
    state is left unchanged. *)
Theorem empty_packet_dropped_everywhere :
  (forall (s : DuplicateFilter.t) i,
      DuplicateFilter.tr s (Some []) i = (None, s) /\
      DuplicateFilter.tx s (Some []) i = (None, s)) /\
  (forall (h : bytes -> Z) (s : LoopbackFilter.t) i,
      LoopbackFilter.tr h s (Some []) i = (None, s) /\
      LoopbackFilter.tx h s (Some []) i = (None, s)) /\
  (forall (s : UniqueFilter.t) i now,
      UniqueFilter.tr s (Some []) i = (None, s) /\
      UniqueFilter.tx s (Some []) i now = (None, s)) /\
  (forall (f : StringFilter.t) i,
      StringFilter.tr f (Some []) i = inr None).
Proof. repeat split. Qed.

(* ------------------------------------------------------------------ *)
(** ** UniqueFilter (C6, C7) *)

(** C6: a non-empty packet that does not begin with [HASH:] is dropped by
    [UniqueFilter.tr], and the [seen] set (indeed the whole state) is
    unchanged. *)
Theorem unique_tr_untagged_dropped (s : UniqueFilter.t) (p : bytes) (i : iface) :
  p <> [] -> take 5 p <> UniqueFilter.marker ->
  UniqueFilter.tr s (Some p) i = (None, s).
Proof.
  intros Hne Hm. unfold UniqueFilter.tr. rewrite py_not_some by exact Hne.
  simpl. rewrite bool_decide_false by congruence. reflexivity.
Qed.

Lemma unique_tr_untagged_dropped_witness :
  b_ "hello" <> [] /\ take 5 (b_ "hello") <> UniqueFilter.marker /\
  UniqueFilter.tr (UniqueFilter.init 12345) (Some (b_ "hello")) "eth0"
    = (None, UniqueFilter.init 12345).
Proof.
  split; [discriminate | split; [discriminate |]].
  apply unique_tr_untagged_dropped; discriminate.
Defined.

(** C7: every receive and every send of UniqueFilter, on any packet
    ([None], tagged or untagged), leaves [seen] a superset of what it was. *)
Theorem unique_seen_monotone :
  (forall (s : UniqueFilter.t) (p : packet) (i : iface),
      UniqueFilter.seen s ⊆ UniqueFilter.seen (snd (UniqueFilter.tr s p i))) /\
  (forall (s : UniqueFilter.t) (p : packet) (i : iface) (now : string),
      UniqueFilter.seen s ⊆ UniqueFilter.seen (snd (UniqueFilter.tx s p i now))).
Proof.
  split; intros; unfold UniqueFilter.tr, UniqueFilter.tx;
    repeat (case_match || case_decide); simpl; set_solver.
Qed.

(* ------------------------------------------------------------------ *)
(** ** DuplicateFilter (C1) *)

Section DuplicateLemmas.
Import DuplicateFilter.

Lemma dd_get_insert_dflt (m : gmap iface pyobj) (i j : iface) :
  get (snd (dd_getitem dflt i m)) j = get m j.
Proof.
  unfold dd_getitem, get. destruct (m !! i) eqn:E; [reflexivity |]. simpl.
  destruct (decide (i = j)) as [->|Hne].
  - by rewrite lookup_insert_eq, E.
  - by rewrite lookup_insert_ne.
Qed.

Lemma dd_get_value (m : gmap iface pyobj) (i : iface) :
  fst (dd_getitem dflt i m) = get m i.
Proof. unfold dd_getitem, get. by destruct (m !! i). Qed.

(** The result of a receive of a non-empty packet. *)
Lemma dup_tr_result (s : t) (p : bytes) (i : iface) :
  p <> [] ->
  fst (tr s (Some p) i) = if bool_decide (get (last_recv s) i = PyBytes p) then None else Some p.
Proof.
  intros Hne. unfold tr. rewrite py_not_some by exact Hne. simpl.
  pose proof (dd_get_value (last_recv s) i) as Hv.
  destruct (dd_getitem dflt i (last_recv s)) as [last lr]. simpl in Hv. subst last.
  unfold py_eqb. destruct (decide (get (last_recv s) i = PyBytes p)) as [E|E].
  - rewrite !bool_decide_true by congruence. reflexivity.
  - rewrite !bool_decide_false by congruence. reflexivity.
Qed.

(** After a receive of a non-empty packet on [i], [last_recv[i]] holds it
    and the other interfaces are unchanged. *)
Lemma dup_tr_last (s : t) (p : bytes) (i j : iface) :
  p <> [] ->
  get (last_recv (snd (tr s (Some p) i))) j =
    if bool_decide (i = j) then PyBytes p else get (last_recv s) j.
Proof.
  intros Hne. unfold tr. rewrite py_not_some by exact Hne. simpl.
  pose proof (dd_get_value (last_recv s) i) as Hv.
  pose proof (fun j => dd_get_insert_dflt (last_recv s) i j) as Hg.
  destruct (dd_getitem dflt i (last_recv s)) as [last lr]. simpl in Hv, Hg. subst last.
  unfold py_eqb. case_bool_decide as E; simpl.
  - rewrite Hg. case_bool_decide; subst; congruence.
  - unfold get at 1. case_bool_decide as Hij.
    + subst j. by rewrite lookup_insert_eq.
    + rewrite lookup_insert_ne by exact Hij. apply Hg.
Qed.

End DuplicateLemmas.

(** C1 (counterexample): an empty packet [b""] received on the interface
    between two receives of [p] is dropped without touching [last_recv],
    so the second receive of [p] is still suppressed. *)
Lemma dup_empty_between_does_not_reset :
  let '(r1, s1) := DuplicateFilter.tr DuplicateFilter.init (Some (b_ "abc")) "eth0" in
  let '(r2, s2) := DuplicateFilter.tr s1 (Some (b_ "")) "eth0" in
  let '(r3, _) := DuplicateFilter.tr s2 (Some (b_ "abc")) "eth0" in
  r1 = Some (b_ "abc") /\ b_ "" <> b_ "abc" /\ r3 = None.
Proof. vm_compute. split; [reflexivity | split; [discriminate | reflexivity]]. Qed.

(** C1 (amended): for a non-empty packet [p] on interface [i]: from any
    state where [p] is not the last packet passed on receive for [i]
    (e.g. a fresh filter) two consecutive receives return [p] then
    [None], and the second is [None] from any state; a different
    NON-EMPTY packet [q] received on [i] in between resets suppression;
    receives on another interface [j] are not suppressed by [i]'s
    history (from a fresh filter, [p] on "eth0" then on "eth1" passes
    both times). *)
Theorem dup_tr_suppression (s : DuplicateFilter.t) (p q : bytes) (i j : iface) :
  p <> [] ->
  (DuplicateFilter.get (DuplicateFilter.last_recv s) i <> PyBytes p ->
     fst (DuplicateFilter.tr s (Some p) i) = Some p) /\
  fst (DuplicateFilter.tr (snd (DuplicateFilter.tr s (Some p) i)) (Some p) i) = None /\
  (q <> [] -> q <> p ->
     fst (DuplicateFilter.tr
            (snd (DuplicateFilter.tr (snd (DuplicateFilter.tr s (Some p) i)) (Some q) i))
            (Some p) i) = Some p) /\
  (i <> j -> DuplicateFilter.get (DuplicateFilter.last_recv s) j <> PyBytes p ->
     fst (DuplicateFilter.tr (snd (DuplicateFilter.tr s (Some p) i)) (Some p) j) = Some p) /\
  (fst (DuplicateFilter.tr DuplicateFilter.init (Some p) "eth0") = Some p /\
   fst (DuplicateFilter.tr (snd (DuplicateFilter.tr DuplicateFilter.init (Some p) "eth0"))
          (Some p) "eth1") = Some p).
Proof.
  intros Hp.
  assert (Hfresh : forall k, DuplicateFilter.get (DuplicateFilter.last_recv DuplicateFilter.init) k
                             <> PyBytes p) by (intros k; discriminate).
  split; [| split; [| split; [| split]]].
  - intros H. rewrite dup_tr_result by exact Hp. by rewrite bool_decide_false.
  - rewrite dup_tr_result, dup_tr_last by exact Hp. repeat case_bool_decide; congruence.
  - intros Hq Hqp. rewrite dup_tr_result, dup_tr_last, dup_tr_last by assumption.
    repeat case_bool_decide; congruence.
  - intros Hij H. rewrite dup_tr_result, dup_tr_last by exact Hp.
    repeat case_bool_decide; congruence.
  - rewrite !dup_tr_result, dup_tr_last by exact Hp. split;
      repeat case_bool_decide; simplify_eq; try congruence; by apply Hfresh in H.
Qed.

Lemma dup_tr_suppression_witness :
  b_ "abc" <> [] /\
  fst (DuplicateFilter.tr DuplicateFilter.init (Some (b_ "abc")) "eth0") = Some (b_ "abc").
Proof.
  split; [discriminate |].
  exact (proj1 (dup_tr_suppression DuplicateFilter.init (b_ "abc") (b_ "xyz") "eth0" "eth1"
                  ltac:(discriminate)) ltac:(discriminate)).
Defined.

(* ------------------------------------------------------------------ *)
(** ** LoopbackFilter (C2, C8, C9) *)

Section LoopbackLemmas.
Import LoopbackFilter.
Variable hash : bytes -> Z.

Lemma count_dd_getitem (m : gmap Z Z) (k h : Z) :
  count (mk (snd (dd_getitem 0 k m))) h = count (mk m) h.
Proof.
  unfold count, dd_getitem; simpl. destruct (m !! k) eqn:E; [reflexivity |]. simpl.
  destruct (decide (k = h)) as [->|Hne].
  - by rewrite lookup_insert_eq, E.
  - by rewrite lookup_insert_ne.
Qed.

Lemma dd_getitem_count (m : gmap Z Z) (k : Z) :
  fst (dd_getitem 0 k m) = count (mk m) k.
Proof. unfold count, dd_getitem; simpl. by destruct (m !! k). Qed.

Lemma count_insert (m : gmap Z Z) (k v h : Z) :
  count (mk (<[k := v]> m)) h = if bool_decide (k = h) then v else count (mk m) h.
Proof.
  unfold count; simpl. case_bool_decide as E.
  - subst. by rewrite lookup_insert_eq.
  - by rewrite lookup_insert_ne.
Qed.

(** The effect of a receive on the counts. *)
Lemma tr_count (s : t) (p : packet) (i : iface) (h : Z) :
  count (snd (tr hash s p i)) h =
    if negb (py_not p) && bool_decide (hash (default [] p) = h) && bool_decide (0 < count s h)
    then count s h - 1 else count s h.
Proof.
  unfold tr. destruct (py_not p); simpl; [reflexivity |].
  set (k := hash (default [] p)).
  pose proof (dd_getitem_count (sent_hashes s) k) as Hv.
  pose proof (count_dd_getitem (sent_hashes s) k) as Hc.
  destruct (dd_getitem 0 k (sent_hashes s)) as [c m] eqn:E. simpl in Hv, Hc.
  destruct s as [sh]; simpl in *.
  destruct (Z.ltb_spec 0 c) as [Hpos|Hpos].
  - pose proof (dd_getitem_count m k) as Hv'.
    destruct (dd_getitem 0 k m) as [c' m'] eqn:E'. simpl in Hv'.
    assert (Hmm' : m' = m).
    { unfold dd_getitem in E'. rewrite <- Hc in Hv. unfold count in Hv'; simpl in Hv'.
      destruct (m !! k) eqn:Ek; [by inversion E' |].
      exfalso. unfold count in Hv; simpl in Hv. rewrite Ek in Hv. simpl in Hv. lia. }
    subst m'. simpl. rewrite count_insert, Hv', Hc.
    repeat case_bool_decide; subst; simpl; try lia; try congruence.
  - simpl. rewrite Hc. repeat case_bool_decide; subst; simpl; try lia; reflexivity.
Qed.

(** The effect of a send on the counts. *)
Lemma tx_count (s : t) (p : packet) (i : iface) (h : Z) :
  count (snd (tx hash s p i)) h =
    if sends_to hash h (OpTx p i) then count s h + 1 else count s h.
Proof.
  unfold tx, sends_to. destruct s as [sh]. destruct (py_not p); simpl; [reflexivity |].
  set (k := hash (default [] p)).
  pose proof (dd_getitem_count sh k) as Hv.
  pose proof (count_dd_getitem sh k h) as Hc.
  destruct (dd_getitem 0 k sh) as [c m] eqn:E. simpl in Hv, Hc |- *.
  rewrite count_insert, Hc, Hv. case_bool_decide as Hk; [subst; reflexivity | reflexivity].
Qed.

Lemma count_lookup (s : t) (h v : Z) : sent_hashes s !! h = Some v -> count s h = v.
Proof. unfold count. intros ->. reflexivity. Qed.

(** Counts stay between 0 and the number of sends to the bucket. *)
Lemma run_count_bounds (ops : list op) :
  forall (s : t) (base : Z -> Z),
    (forall h, 0 <= count s h <= base h) ->
    forall h, 0 <= count (run hash s ops) h
                <= base h + Z.of_nat (length (filter (sends_to hash h) ops)).
Proof.
  induction ops as [|o ops IH]; intros s base Hs h.
  - simpl. specialize (Hs h). lia.
  - unfold run. simpl. fold (run hash (snd (step hash s o)) ops).
    specialize (IH (snd (step hash s o))
                  (fun h => base h + if sends_to hash h o then 1 else 0)).
    assert (Hstep : forall h, 0 <= count (snd (step hash s o)) h
                                <= base h + (if sends_to hash h o then 1 else 0)).
    { intros h'. specialize (Hs h'). destruct o as [p i | p i]; unfold step.
      - rewrite tr_count. cbn [sends_to]. repeat case_match; repeat case_bool_decide; lia.
      - rewrite tx_count. destruct (sends_to hash h' (OpTx p i)); lia. }
    specialize (IH Hstep h). cbv beta in IH. rewrite filter_cons.
    case_decide as Hd; destruct (sends_to hash h o); simpl in Hd; try tauto;
      simpl length; lia.
Qed.

End LoopbackLemmas.

Section LoopbackResults.
Import LoopbackFilter.
Variable hash : bytes -> Z.

Lemma tr_result (s : t) (p : bytes) (i : iface) :
  p <> [] ->
  fst (tr hash s (Some p) i) = if bool_decide (0 < count s (hash p)) then None else Some p.
Proof.
  intros Hp. unfold tr. rewrite py_not_some by exact Hp. simpl.
  pose proof (dd_getitem_count (sent_hashes s) (hash p)) as Hv.
  destruct (dd_getitem 0 (hash p) (sent_hashes s)) as [c m]. simpl in Hv. subst c.
  destruct s as [sh]. simpl.
  destruct (Z.ltb_spec 0 (count (mk sh) (hash p))).
  - destruct (dd_getitem 0 (hash p) m). rewrite bool_decide_true by lia. reflexivity.
  - rewrite bool_decide_false by lia. reflexivity.
Qed.

Lemma tx_result (s : t) (p : packet) (i : iface) :
  fst (tx hash s p i) = if py_not p then None else p.
Proof.
  unfold tx. destruct (py_not p); [reflexivity |].
  by destruct (dd_getitem 0 (hash (default [] p)) (sent_hashes s)).
Qed.

Lemma sends_to_self (p : bytes) (i : iface) :
  p <> [] -> sends_to hash (hash p) (OpTx (Some p) i) = true.
Proof. intros Hp. unfold sends_to. rewrite py_not_some by exact Hp. by rewrite bool_decide_true. Qed.

Lemma count_init (h : Z) : count init h = 0.
Proof. reflexivity. Qed.

Lemma tr_count_self (s : t) (p : bytes) (i : iface) :
  p <> [] ->
  count (snd (tr hash s (Some p) i)) (hash p) =
    if bool_decide (0 < count s (hash p)) then count s (hash p) - 1 else count s (hash p).
Proof.
  intros Hp. rewrite tr_count. rewrite py_not_some by exact Hp.
  rewrite (bool_decide_true (hash _ = _)) by reflexivity. reflexivity.
Qed.

End LoopbackResults.

(** C2: from a fresh LoopbackFilter, for any non-empty packet [p], any
    interfaces and whatever [hash] the process uses: two sends of [p] pass
    it through, the next two receives of [p] are suppressed and the third
    passes [p] unchanged. *)
Theorem loopback_credit_conservation (hash : bytes -> Z) (p : bytes) (i1 i2 i3 : iface) :
  p <> [] ->
  let '(r1, s1) := LoopbackFilter.tx hash LoopbackFilter.init (Some p) i1 in
  let '(r2, s2) := LoopbackFilter.tx hash s1 (Some p) i2 in
  let '(r3, s3) := LoopbackFilter.tr hash s2 (Some p) i3 in
  let '(r4, s4) := LoopbackFilter.tr hash s3 (Some p) i3 in
  let '(r5, _) := LoopbackFilter.tr hash s4 (Some p) i3 in
  r1 = Some p /\ r2 = Some p /\ r3 = None /\ r4 = None /\ r5 = Some p.
Proof.
  intros Hp.
  destruct (LoopbackFilter.tx hash LoopbackFilter.init (Some p) i1) as [r1 s1] eqn:E1.
  destruct (LoopbackFilter.tx hash s1 (Some p) i2) as [r2 s2] eqn:E2.
  destruct (LoopbackFilter.tr hash s2 (Some p) i3) as [r3 s3] eqn:E3.
  destruct (LoopbackFilter.tr hash s3 (Some p) i3) as [r4 s4] eqn:E4.
  destruct (LoopbackFilter.tr hash s4 (Some p) i3) as [r5 s5] eqn:E5.
  assert (C1 : LoopbackFilter.count s1 (hash p) = 1).
  { change s1 with (snd (r1, s1)). rewrite <- E1, tx_count, sends_to_self by exact Hp.
    reflexivity. }
  assert (C2 : LoopbackFilter.count s2 (hash p) = 2).
  { change s2 with (snd (r2, s2)). rewrite <- E2, tx_count, sends_to_self by exact Hp.
    rewrite C1. reflexivity. }
  assert (C3 : LoopbackFilter.count s3 (hash p) = 1).
  { change s3 with (snd (r3, s3)). rewrite <- E3, tr_count_self, C2 by exact Hp.
    reflexivity. }
  assert (C4 : LoopbackFilter.count s4 (hash p) = 0).
  { change s4 with (snd (r4, s4)). rewrite <- E4, tr_count_self, C3 by exact Hp.
    reflexivity. }
  change r1 with (fst (r1, s1)). change r2 with (fst (r2, s2)).
  change r3 with (fst (r3, s3)). change r4 with (fst (r4, s4)).
  change r5 with (fst (r5, s5)).
  rewrite <- E1, <- E2, <- E3, <- E4, <- E5, !tx_result, !tr_result, C2, C3, C4 by exact Hp.
  rewrite (py_not_some p Hp). repeat split.
Qed.

Lemma loopback_credit_conservation_witness :
  b_ "hi" <> [] /\
  let hash := PyHash.hash_bytes (PyHash.secret_of_seed 0) in
  let '(r1, s1) := LoopbackFilter.tx hash LoopbackFilter.init (Some (b_ "hi")) "eth0" in
  let '(r2, s2) := LoopbackFilter.tx hash s1 (Some (b_ "hi")) "eth1" in
  let '(r3, s3) := LoopbackFilter.tr hash s2 (Some (b_ "hi")) "eth0" in
  let '(r4, s4) := LoopbackFilter.tr hash s3 (Some (b_ "hi")) "eth0" in
  let '(r5, _) := LoopbackFilter.tr hash s4 (Some (b_ "hi")) "eth0" in
  r1 = Some (b_ "hi") /\ r2 = Some (b_ "hi") /\ r3 = None /\ r4 = None /\ r5 = Some (b_ "hi").
Proof.
  split; [discriminate |].
  exact (loopback_credit_conservation (PyHash.hash_bytes (PyHash.secret_of_seed 0))
           (b_ "hi") "eth0" "eth1" "eth0" ltac:(discriminate)).
Defined.

(** C8: from a fresh LoopbackFilter, after any sequence of receives and
    sends (whatever [hash] the process uses), every stored count is
    [>= 0] and at most the number of sends of packets of that bucket; a
    receive changes a count only by decrementing it by exactly 1 when it
    was strictly positive (the receive is then suppressed, and the bucket
    is the received packet's); a send never lowers a count. *)
Theorem loopback_counter_invariant (hash : bytes -> Z) :
  (forall (ops : list LoopbackFilter.op) (h v : Z),
     LoopbackFilter.sent_hashes (LoopbackFilter.run hash LoopbackFilter.init ops) !! h = Some v ->
     0 <= v <= Z.of_nat (length (filter (LoopbackFilter.sends_to hash h) ops))) /\
  (forall (s : LoopbackFilter.t) (p : packet) (i : iface) (h : Z),
     LoopbackFilter.count (snd (LoopbackFilter.tr hash s p i)) h <> LoopbackFilter.count s h ->
     0 < LoopbackFilter.count s h /\
     LoopbackFilter.count (snd (LoopbackFilter.tr hash s p i)) h = LoopbackFilter.count s h - 1 /\
     fst (LoopbackFilter.tr hash s p i) = None /\
     exists pb, p = Some pb /\ pb <> [] /\ hash pb = h) /\
  (forall (s : LoopbackFilter.t) (p : packet) (i : iface) (h : Z),
     LoopbackFilter.count s h <= LoopbackFilter.count (snd (LoopbackFilter.tx hash s p i)) h).
Proof.
  split; [| split].
  - intros ops h v Hv. apply count_lookup in Hv. subst v.
    pose proof (run_count_bounds hash ops LoopbackFilter.init (fun _ => 0)) as B.
    simpl in B. specialize (B ltac:(intros; rewrite count_init; lia) h). lia.
  - intros s p i h Hne. rewrite tr_count in Hne |- *.
    destruct p as [pb|]; [| simpl in Hne; congruence].
    destruct pb as [|b pb']; [simpl in Hne; congruence |].
    set (pb := b :: pb') in *.
    assert (Hp : pb <> []) by discriminate.
    rewrite py_not_some in Hne |- * by exact Hp. simpl in Hne |- *.
    case_bool_decide as Hh; [| simpl in Hne; congruence].
    case_bool_decide as Hpos; simpl in Hne |- *; [| congruence].
    split; [exact Hpos | split; [reflexivity | split]].
    + rewrite tr_result by exact Hp. subst h. by rewrite bool_decide_true.
    + exists pb. done.
  - intros s p i h. rewrite tx_count. destruct (LoopbackFilter.sends_to hash h _); lia.
Qed.

(** C9 (counterexample): the bucket key is Python's [hash(packet)], which
    is keyed by the per-process hash secret: the same packet [b"hi"],
    sent on a fresh filter in a process run with [PYTHONHASHSEED=0] and in
    one run with [PYTHONHASHSEED=1], is counted under different keys, so
    the filter's state is not reproducible across processes. *)
Lemma loopback_bucket_not_reproducible :
  LoopbackFilter.sent_hashes
    (snd (LoopbackFilter.tx (PyHash.hash_bytes (PyHash.secret_of_seed 0))
            LoopbackFilter.init (Some (b_ "hi")) "eth0"))
  <> LoopbackFilter.sent_hashes
    (snd (LoopbackFilter.tx (PyHash.hash_bytes (PyHash.secret_of_seed 1))
            LoopbackFilter.init (Some (b_ "hi")) "eth0")).
Proof.
  intros H. apply (f_equal (fun m : gmap Z Z => m !! 4881310999729328475)) in H.
  vm_compute in H. discriminate.
Qed.

(** C9 (amended): LoopbackFilter buckets a packet under
    [hash(packet)], CPython's SipHash-1-3 of its bytes keyed by the
    per-process secret [k].  Within a process equal contents always share
    a bucket: from any state reached from a fresh filter, a send of [p]
    adds one credit to bucket [hash_bytes k p] and a later receive of [p]
    on any interface is suppressed.  Across processes the key is not
    reproducible: [hash(b"hi")] differs between [PYTHONHASHSEED=0] and
    [PYTHONHASHSEED=1]. *)
Theorem loopback_bucket_is_process_hash (k : PyHash.secret) (ops : list LoopbackFilter.op)
    (p : bytes) (i j : iface) :
  p <> [] ->
  let hash := PyHash.hash_bytes k in
  let s := LoopbackFilter.run hash LoopbackFilter.init ops in
  LoopbackFilter.count (snd (LoopbackFilter.tx hash s (Some p) i)) (hash p)
    = LoopbackFilter.count s (hash p) + 1 /\
  fst (LoopbackFilter.tr hash (snd (LoopbackFilter.tx hash s (Some p) i)) (Some p) j) = None /\
  PyHash.hash_bytes (PyHash.secret_of_seed 0) (b_ "hi")
    <> PyHash.hash_bytes (PyHash.secret_of_seed 1) (b_ "hi").
Proof.
  intros Hp hash s.
  assert (Hc : LoopbackFilter.count (snd (LoopbackFilter.tx hash s (Some p) i)) (hash p)
               = LoopbackFilter.count s (hash p) + 1).
  { rewrite tx_count, sends_to_self by exact Hp. reflexivity. }
  assert (Hnn : 0 <= LoopbackFilter.count s (hash p)).
  { pose proof (run_count_bounds hash ops LoopbackFilter.init (fun _ => 0)) as B.
    specialize (B ltac:(intros; rewrite count_init; lia) (hash p)). subst s. lia. }
  split; [exact Hc | split].
  - rewrite tr_result by exact Hp. rewrite bool_decide_true by lia. reflexivity.
  - vm_compute. discriminate.
Qed.

Lemma loopback_bucket_is_process_hash_witness :
  b_ "hi" <> [] /\
  fst (LoopbackFilter.tr (PyHash.hash_bytes (PyHash.secret_of_seed 0))
         (snd (LoopbackFilter.tx (PyHash.hash_bytes (PyHash.secret_of_seed 0))
                 LoopbackFilter.init (Some (b_ "hi")) "eth0"))
         (Some (b_ "hi")) "eth1") = None.
Proof.
  split; [discriminate |].
  exact (proj1 (proj2 (loopback_bucket_is_process_hash (PyHash.secret_of_seed 0) []
                         (b_ "hi") "eth0" "eth1" ltac:(discriminate)))).
Defined.

(* ------------------------------------------------------------------ *)
(** ** UniqueFilter wire format (C3, C4) *)

(** A character of [0-9a-f]. *)
Definition lower_hex (c : Ascii.ascii) : bool :=
  let n := Ascii.nat_of_ascii c in (((48 <=? n) && (n <=? 57)) || ((97 <=? n) && (n <=? 102)))%nat.

Lemma hex_digit_props (n : Z) :
  0 <= n < 16 ->
  lower_hex (Md5.hex_digit n) = true /\
  bytes_of_Z (utf8_char (Md5.hex_digit n)) = [Ascii.byte_of_ascii (Md5.hex_digit n)].
Proof.
  intros Hn. unfold Md5.hex_digit.
  assert (Hm : (Z.to_nat n < 16)%nat) by lia.
  remember (Z.to_nat n) as m eqn:Em. clear Em Hn.
  do 16 (destruct m as [|m]; [split; reflexivity |]). lia.
Qed.

Lemma le_bytes_props (n : nat) (x : Z) :
  length (Md5.le_bytes n x) = n /\ Forall (fun b => 0 <= b < 256) (Md5.le_bytes n x).
Proof.
  revert x. induction n as [|n IH]; intros x; simpl; [split; [reflexivity | constructor] |].
  destruct (IH (x / 256)) as [Hl Hf]. split; [by rewrite Hl |].
  constructor; [| exact Hf]. apply Z.mod_pos_bound. lia.
Qed.

Lemma digest_props (msg : list Z) :
  length (Md5.digest msg) = 16%nat /\ Forall (fun b => 0 <= b < 256) (Md5.digest msg).
Proof.
  unfold Md5.digest. set (st := Md5.blocks _ _ _).
  destruct (le_bytes_props 4 (Md5.A st)) as [La Fa].
  destruct (le_bytes_props 4 (Md5.B st)) as [Lb Fb].
  destruct (le_bytes_props 4 (Md5.C st)) as [Lc Fc].
  destruct (le_bytes_props 4 (Md5.D st)) as [Ld Fd].
  split.
  - rewrite !length_app, La, Lb, Lc, Ld. reflexivity.
  - repeat (apply Forall_app; split); assumption.
Qed.

Lemma bytes_of_utf8_ascii (cs : list Ascii.ascii) :
  Forall (fun c => bytes_of_Z (utf8_char c) = [Ascii.byte_of_ascii c]) cs ->
  bytes_of_Z (concat (map utf8_char cs)) = map Ascii.byte_of_ascii cs.
Proof.
  induction 1 as [|c cs Hc _ IH]; [reflexivity |].
  simpl. unfold bytes_of_Z in *. rewrite map_app, Hc, IH. reflexivity.
Qed.

(** The characters of a hex rendering of bytes are [0-9a-f], two per byte,
    and they are their own UTF-8 encoding. *)
Lemma hex_render_props (d : list Z) :
  Forall (fun b => 0 <= b < 256) d ->
  let cs := concat (map (fun b => [Md5.hex_digit (b / 16); Md5.hex_digit (b mod 16)]) d) in
  length cs = (2 * length d)%nat /\ forallb lower_hex cs = true /\
  bytes_of_Z (concat (map utf8_char cs)) = map Ascii.byte_of_ascii cs.
Proof.
  intros Hd cs. rewrite bytes_of_utf8_ascii; [| unfold cs].
  - unfold cs. clear cs. induction Hd as [|b d Hb Hd IH]; simpl; [repeat split |].
    destruct IH as [IHl [IHf _]].
    destruct (hex_digit_props (b / 16)) as [H1 _];
      [split; [apply Z.div_pos | apply Z.div_lt_upper_bound]; lia |].
    destruct (hex_digit_props (b mod 16)) as [H2 _]; [apply Z.mod_pos_bound; lia |].
    rewrite H1, H2. repeat split; [lia | exact IHf].
  - induction Hd as [|b d Hb Hd IH]; simpl; [constructor |].
    destruct (hex_digit_props (b / 16)) as [_ E1];
      [split; [apply Z.div_pos | apply Z.div_lt_upper_bound]; lia |].
    destruct (hex_digit_props (b mod 16)) as [_ E2]; [apply Z.mod_pos_bound; lia |].
    constructor; [exact E1 | constructor; [exact E2 | exact IH]].
Qed.

Lemma length_string_of_list_ascii (l : list Ascii.ascii) :
  String.length (String.string_of_list_ascii l) = length l.
Proof. induction l as [|c l IH]; simpl; [reflexivity | by rewrite IH]. Qed.

(** Properties of an identifier made by [UniqueFilter.tx]. *)
Lemma fresh_uuid_props (s : UniqueFilter.t) (i : iface) (now : string) :
  let u := UniqueFilter.fresh_uuid s i now in
  String.length u = 32%nat /\ forallb lower_hex (String.list_ascii_of_string u) = true /\
  bytes_of_Z (encode_utf8 u) = b_ u.
Proof.
  intros u. unfold u, UniqueFilter.fresh_uuid, Md5.hexdigest.
  set (d := Md5.digest _). destruct (digest_props (encode_utf8 (UniqueFilter.our_id s +:+ i +:+ now)))
    as [Ld Fd]. fold d in Ld, Fd.
  destruct (hex_render_props d Fd) as [L [F B]].
  unfold encode_utf8, b_. rewrite !String.list_ascii_of_string_of_list_ascii.
  split; [| split; assumption].
  rewrite length_string_of_list_ascii, L, Ld. reflexivity.
Qed.

(** The output of a send of an untagged non-empty packet. *)
Lemma unique_tx_untagged (s : UniqueFilter.t) (p : bytes) (i : iface) (now : string) :
  p <> [] -> take 5 p <> UniqueFilter.marker ->
  UniqueFilter.tx s (Some p) i now =
    (Some (UniqueFilter.marker ++ b_ (UniqueFilter.fresh_uuid s i now) ++ b_ "; " ++ p),
     UniqueFilter.add (PyStr (UniqueFilter.fresh_uuid s i now)) s).
Proof.
  intros Hp Hm. unfold UniqueFilter.tx. rewrite py_not_some by exact Hp. simpl.
  rewrite bool_decide_false by congruence.
  destruct (fresh_uuid_props s i now) as [_ [_ ->]]. reflexivity.
Qed.

(** C4: for a non-empty packet [p] not beginning with [HASH:],
    [UniqueFilter.tx] returns exactly [b"HASH:"], a 32-character
    lowercase-hex identifier, [b"; "] and [p] byte for byte; the identifier
    is [hashlib.md5] (a 16-byte, i.e. 128-bit, digest) of
    [our_id + str(interface) + str(time.time())] rendered by [hexdigest]. *)
Theorem unique_tx_wire_format (s : UniqueFilter.t) (p : bytes) (i : iface) (now : string) :
  p <> [] -> take 5 p <> UniqueFilter.marker ->
  let u := UniqueFilter.fresh_uuid s i now in
  fst (UniqueFilter.tx s (Some p) i now) = Some (b_ "HASH:" ++ b_ u ++ b_ "; " ++ p) /\
  String.length u = 32%nat /\
  forallb lower_hex (String.list_ascii_of_string u) = true /\
  u = Md5.hexdigest (encode_utf8 (UniqueFilter.our_id s +:+ i +:+ now)) /\
  length (Md5.digest (encode_utf8 (UniqueFilter.our_id s +:+ i +:+ now))) = 16%nat /\
  Forall (fun b => 0 <= b < 256) (Md5.digest (encode_utf8 (UniqueFilter.our_id s +:+ i +:+ now))).
Proof.
  intros Hp Hm u. rewrite unique_tx_untagged by assumption.
  destruct (fresh_uuid_props s i now) as [L [F _]].
  destruct (digest_props (encode_utf8 (UniqueFilter.our_id s +:+ i +:+ now))) as [Ld Fd].
  repeat split; assumption.
Qed.

Lemma unique_tx_wire_format_witness :
  b_ "hi" <> [] /\ take 5 (b_ "hi") <> UniqueFilter.marker /\
  fst (UniqueFilter.tx (UniqueFilter.init 12345) (Some (b_ "hi")) "eth0" "1700000000.123")
    = Some (b_ "HASH:" ++ b_ "0bb2fed5189bd56485e16938af341560" ++ b_ "; " ++ b_ "hi").
Proof.
  split; [discriminate | split; [discriminate |]].
  destruct (unique_tx_wire_format (UniqueFilter.init 12345) (b_ "hi") "eth0" "1700000000.123"
              ltac:(discriminate) ltac:(discriminate)) as [H _].
  rewrite H. vm_compute. reflexivity.
Defined.

(** C3 (code_bug): [tx] records the identifier of a packet it originates
    as the [str] [packet_uuid], while [tr] looks up the [bytes] slice
    [packet[5:37]]; a [str] never equals a [bytes], so a node's own tagged
    packet fed back into the same instance's [tr] is passed through, not
    dropped.  The other half of the claim holds: a fresh instance passes
    the tagged packet once and drops the identical second copy. *)
Theorem unique_own_packet_not_suppressed (r r' : Z) (p : bytes) (i j : iface) (now : string) :
  p <> [] -> take 5 p <> UniqueFilter.marker ->
  let '(out, s1) := UniqueFilter.tx (UniqueFilter.init r) (Some p) i now in
  out <> None /\
  fst (UniqueFilter.tr s1 out j) = out /\
  (let '(r2, s2) := UniqueFilter.tr (UniqueFilter.init r') out j in
   r2 = out /\ fst (UniqueFilter.tr s2 out j) = None).
Proof.
  intros Hp Hm. rewrite unique_tx_untagged by assumption.
  set (u := UniqueFilter.fresh_uuid _ i now).
  set (rest := b_ u ++ b_ "; " ++ p). clearbody rest u.
  unfold UniqueFilter.tr. rewrite py_not_marker. cbv iota. rewrite !default_some.
  rewrite !take_app_marker, !drop_app_marker.
  rewrite !(bool_decide_true (UniqueFilter.marker = UniqueFilter.marker)) by reflexivity.
  rewrite !seen_add, !seen_init.
  split; [discriminate |]. split.
  - rewrite bool_decide_false; [reflexivity | set_solver].
  - rewrite bool_decide_false by set_solver. cbv iota.
    rewrite ?py_not_marker, ?default_some, ?take_app_marker, ?drop_app_marker.
    rewrite ?(bool_decide_true (UniqueFilter.marker = UniqueFilter.marker)) by reflexivity.
    rewrite ?seen_add, ?seen_init.
    rewrite bool_decide_true by set_solver. split; reflexivity.
Qed.

Lemma unique_own_packet_not_suppressed_witness :
  let out := fst (UniqueFilter.tx (UniqueFilter.init 12345) (Some (b_ "hi")) "eth0"
                    "1700000000.123") in
  out = Some (b_ "HASH:0bb2fed5189bd56485e16938af341560; hi") /\
  fst (UniqueFilter.tr (snd (UniqueFilter.tx (UniqueFilter.init 12345) (Some (b_ "hi")) "eth0"
                               "1700000000.123")) out "eth0") = out.
Proof.
  pose proof (unique_own_packet_not_suppressed 12345 54321 (b_ "hi") "eth0" "eth0"
                "1700000000.123" ltac:(discriminate) ltac:(discriminate)) as H.
  destruct (UniqueFilter.tx (UniqueFilter.init 12345) (Some (b_ "hi")) "eth0" "1700000000.123")
    as [out s1] eqn:E.
  destruct H as [_ [H _]]. simpl. split; [| exact H].
  change out with (fst (out, s1)). rewrite <- E. vm_compute. reflexivity.
Defined.

(* ------------------------------------------------------------------ *)
(** ** StringFilter (C5) *)

Lemma is_substring_spec (pat l : bytes) :
  is_substring pat l = true <-> exists a b, l = a ++ pat ++ b.
Proof.
  induction l as [|x l IH]; simpl.
  - rewrite orb_false_r. case_bool_decide as E; split; intros H; try done.
    + exists [], []. rewrite <- E. destruct pat; reflexivity.
    + destruct H as (a & b & Hab). destruct a, pat; simpl in *; congruence.
  - rewrite orb_true_iff, IH. case_bool_decide as E.
    + split; [intros _ | intros _; by left].
      exists [], (drop (length pat) (x :: l)). simpl app. rewrite <- E at 1.
      symmetry. apply take_drop.
    + split.
      * intros [H | (a & b & ->)]; [discriminate |]. by exists (x :: a), b.
      * intros (a & b & Hab). right. destruct a as [|y a].
        -- exfalso. apply E. simpl in Hab. rewrite Hab. apply take_app_length.
        -- simpl in Hab. injection Hab as -> Hl. by exists a, b.
Qed.

(** With a [bytes] pattern, [tr] passes a non-empty packet exactly when
    the pattern occurs in it ([inverse = False]) or does not
    ([inverse = True]); occurrence is [is_substring], characterised by
    [is_substring_spec]. *)
Lemma string_filter_bytes_pattern (pat p : bytes) (inv : bool) (i : iface) :
  p <> [] ->
  StringFilter.tr (StringFilter.match_ (PyBytes pat) inv) (Some p) i =
    inr (if xorb inv (is_substring pat p) then Some p else None).
Proof.
  intros Hp. unfold StringFilter.tr. rewrite py_not_some by exact Hp. simpl.
  destruct (is_substring pat p), inv; reflexivity.
Qed.

(** C5 (code_bug): [StringFilter.match("foo")], the [str] pattern the
    class docstring shows, makes [tr] evaluate ["foo" in b"xfoox"], which
    raises [TypeError] in Python 3, for [match] and for [dontmatch]; only
    the absent packet returns [None] without raising. *)
Theorem string_filter_str_pattern_raises :
  StringFilter.tr (StringFilter.match_ (PyStr "foo") false) (Some (b_ "xfoox")) "eth0"
    = inl TypeError /\
  StringFilter.tr (StringFilter.dontmatch (PyStr "foo")) (Some (b_ "xfoox")) "eth0"
    = inl TypeError /\
  StringFilter.tr (StringFilter.match_ (PyStr "foo") false) None "eth0" = inr None /\
  StringFilter.tr (StringFilter.dontmatch (PyStr "foo")) None "eth0" = inr None /\
  (forall (s : string) (inv : bool) (p : bytes) (i : iface),
     p <> [] -> StringFilter.tr (StringFilter.match_ (PyStr s) inv) (Some p) i = inl TypeError).
Proof.
  repeat split. intros s inv p i Hp. unfold StringFilter.tr.
  rewrite py_not_some by exact Hp. reflexivity.
Qed.

(* ------------------------------------------------------------------ *)
(** ** Further properties of the filters *)

(** *** LoopbackFilter: per-bucket accounting *)

Section LoopbackAccounting.
Import LoopbackFilter.
Variable hash : bytes -> Z.

(** Over any run, a bucket's count moves by the sends to it minus the
    receives it absorbed. *)
Lemma run_count_balance (ops : list op) :
  forall (s : t) (h : Z),
    count (run hash s ops) h + Z.of_nat (suppressed hash h s ops)
      = count s h + Z.of_nat (length (filter (sends_to hash h) ops)).
Proof.
  induction ops as [|o ops IH]; intros s h; [simpl; lia |].
  unfold run. simpl. fold (run hash (snd (step hash s o)) ops).
  destruct (step hash s o) as [r s'] eqn:E. simpl.
  specialize (IH s' h). rewrite filter_cons.
  assert (Hs' : s' = snd (step hash s o)) by (rewrite E; reflexivity).
  assert (Hr : r = fst (step hash s o)) by (rewrite E; reflexivity).
  destruct o as [p i | p i]; unfold step in Hs', Hr.
  - rewrite Hs', tr_count in IH. rewrite Hs'. cbn [sends_to].
    rewrite decide_False by (simpl; tauto). rewrite Hr.
    destruct p as [[|b pb']|]; simpl in IH |- *; try lia.
    set (pb := b :: pb') in *. assert (Hp : pb <> []) by discriminate.
    rewrite tr_result by exact Hp.
    destruct (decide (hash pb = h)) as [<-|Hne];
      repeat case_bool_decide; simpl in *; try congruence; lia.
  - rewrite Hs', tx_count in IH. rewrite Hs'. simpl Nat.add.
    case_decide as Hd; destruct (sends_to hash h (OpTx p i)); simpl in Hd; try tauto;
      destruct (py_not p); simpl length in *; lia.
Qed.

End LoopbackAccounting.

(** LoopbackFilter never absorbs more echoes than it has credits: from a
    fresh filter, over any sequence of calls, the receives of a bucket
    that return [None] are at most the sends of packets of that bucket. *)
Theorem loopback_absorbed_le_sent (hash : bytes -> Z) (ops : list LoopbackFilter.op) (h : Z) :
  (LoopbackFilter.suppressed hash h LoopbackFilter.init ops
     <= length (filter (LoopbackFilter.sends_to hash h) ops))%nat.
Proof.
  pose proof (run_count_balance hash ops LoopbackFilter.init h) as Hb.
  pose proof (run_count_bounds hash ops LoopbackFilter.init (fun _ => 0)) as B.
  specialize (B ltac:(intros; rewrite count_init; lia) h).
  rewrite count_init in Hb. lia.
Qed.

(** A receive is suppressed only by a prior send of the same bucket: from
    a fresh filter, if no call of [ops] sent a packet of [p]'s bucket, a
    receive of [p] on any interface passes it unchanged. *)
Theorem loopback_unsent_passes (hash : bytes -> Z) (ops : list LoopbackFilter.op)
    (p : bytes) (i : iface) :
  p <> [] -> filter (LoopbackFilter.sends_to hash (hash p)) ops = [] ->
  fst (LoopbackFilter.tr hash (LoopbackFilter.run hash LoopbackFilter.init ops) (Some p) i)
    = Some p.
Proof.
  intros Hp Hn. rewrite tr_result by exact Hp.
  pose proof (run_count_bounds hash ops LoopbackFilter.init (fun _ => 0)) as B.
  specialize (B ltac:(intros; rewrite count_init; lia) (hash p)).
  rewrite Hn in B. simpl in B. rewrite bool_decide_false by lia. reflexivity.
Qed.

Lemma loopback_unsent_passes_witness :
  b_ "ping" <> [] /\
  filter (LoopbackFilter.sends_to (PyHash.hash_bytes (PyHash.secret_of_seed 0))
            (PyHash.hash_bytes (PyHash.secret_of_seed 0) (b_ "ping")))
    [LoopbackFilter.OpTx (Some (b_ "pong")) "eth0"; LoopbackFilter.OpTr (Some (b_ "ping")) "eth1"]
    = [] /\
  fst (LoopbackFilter.tr (PyHash.hash_bytes (PyHash.secret_of_seed 0))
         (LoopbackFilter.run (PyHash.hash_bytes (PyHash.secret_of_seed 0)) LoopbackFilter.init
            [LoopbackFilter.OpTx (Some (b_ "pong")) "eth0"; LoopbackFilter.OpTr (Some (b_ "ping")) "eth1"])
         (Some (b_ "ping")) "eth0") = Some (b_ "ping").
Proof.
  assert (Hf : filter (LoopbackFilter.sends_to (PyHash.hash_bytes (PyHash.secret_of_seed 0))
            (PyHash.hash_bytes (PyHash.secret_of_seed 0) (b_ "ping")))
    [LoopbackFilter.OpTx (Some (b_ "pong")) "eth0"; LoopbackFilter.OpTr (Some (b_ "ping")) "eth1"]
    = []) by (vm_compute; reflexivity).
  split; [discriminate | split; [exact Hf |]].
  exact (loopback_unsent_passes _ _ (b_ "ping") "eth0" ltac:(discriminate) Hf).
Defined.

(** Calls on a packet touch only that packet's bucket: a receive or send
    of [p] leaves the count of every other bucket unchanged. *)
Theorem loopback_bucket_isolation (hash : bytes -> Z) (s : LoopbackFilter.t) (p : packet)
    (i : iface) (h : Z) :
  h <> hash (default [] p) ->
  LoopbackFilter.count (snd (LoopbackFilter.tr hash s p i)) h = LoopbackFilter.count s h /\
  LoopbackFilter.count (snd (LoopbackFilter.tx hash s p i)) h = LoopbackFilter.count s h.
Proof.
  intros Hh. rewrite tr_count, tx_count. unfold LoopbackFilter.sends_to.
  rewrite !(bool_decide_false (hash (default [] p) = h)) by congruence.
  destruct (negb (py_not p)); split; reflexivity.
Qed.

Lemma loopback_bucket_isolation_witness :
  PyHash.hash_bytes (PyHash.secret_of_seed 0) (b_ "b")
    <> PyHash.hash_bytes (PyHash.secret_of_seed 0) (b_ "a") /\
  LoopbackFilter.count
    (snd (LoopbackFilter.tx (PyHash.hash_bytes (PyHash.secret_of_seed 0))
            LoopbackFilter.init (Some (b_ "a")) "eth0"))
    (PyHash.hash_bytes (PyHash.secret_of_seed 0) (b_ "b")) = 0.
Proof.
  assert (H : PyHash.hash_bytes (PyHash.secret_of_seed 0) (b_ "b")
              <> PyHash.hash_bytes (PyHash.secret_of_seed 0) (b_ "a")) by (vm_compute; discriminate).
  split; [exact H |].
  exact (proj2 (loopback_bucket_isolation _ LoopbackFilter.init (Some (b_ "a")) "eth0" _ H)).
Defined.

(** *** DuplicateFilter: the send direction *)

Section DuplicateSendLemmas.
Import DuplicateFilter.

Lemma dup_tx_result (s : t) (p : bytes) (i : iface) :
  p <> [] ->
  fst (tx s (Some p) i) = if bool_decide (get (last_sent s) i = PyBytes p) then None else Some p.
Proof.
  intros Hne. unfold tx. rewrite py_not_some by exact Hne. simpl.
  pose proof (dd_get_value (last_sent s) i) as Hv.
  destruct (dd_getitem dflt i (last_sent s)) as [last ls]. simpl in Hv. subst last.
  unfold py_eqb. destruct (decide (get (last_sent s) i = PyBytes p)) as [E|E].
  - rewrite !bool_decide_true by congruence. reflexivity.
  - rewrite !bool_decide_false by congruence. reflexivity.
Qed.

Lemma dup_tx_last (s : t) (p : bytes) (i j : iface) :
  p <> [] ->
  get (last_sent (snd (tx s (Some p) i))) j =
    if bool_decide (i = j) then PyBytes p else get (last_sent s) j.
Proof.
  intros Hne. unfold tx. rewrite py_not_some by exact Hne. simpl.
  pose proof (dd_get_value (last_sent s) i) as Hv.
  pose proof (fun j => dd_get_insert_dflt (last_sent s) i j) as Hg.
  destruct (dd_getitem dflt i (last_sent s)) as [last ls]. simpl in Hv, Hg. subst last.
  unfold py_eqb. case_bool_decide as E; simpl.
  - rewrite Hg. case_bool_decide; subst; congruence.
  - unfold get at 1. case_bool_decide as Hij.
    + subst j. by rewrite lookup_insert_eq.
    + rewrite lookup_insert_ne by exact Hij. apply Hg.
Qed.

Lemma dup_tr_keeps_sent (s : t) (p : packet) (i : iface) :
  last_sent (snd (tr s p i)) = last_sent s.
Proof.
  unfold tr. destruct (py_not p); [reflexivity |].
  destruct (dd_getitem dflt i (last_recv s)). by destruct (py_eqb _ _).
Qed.

Lemma dup_tx_keeps_recv (s : t) (p : packet) (i : iface) :
  last_recv (snd (tx s p i)) = last_recv s.
Proof.
  unfold tx. destruct (py_not p); [reflexivity |].
  destruct (dd_getitem dflt i (last_sent s)). by destruct (py_eqb _ _).
Qed.

Lemma dup_tx_depends_on_sent (s s' : t) (p : packet) (i : iface) :
  last_sent s = last_sent s' -> fst (tx s p i) = fst (tx s' p i).
Proof.
  intros E. unfold tx. rewrite E. destruct (py_not p); [reflexivity |].
  destruct (dd_getitem dflt i (last_sent s')). by destruct (py_eqb _ _).
Qed.

Lemma dup_tr_depends_on_recv (s s' : t) (p : packet) (i : iface) :
  last_recv s = last_recv s' -> fst (tr s p i) = fst (tr s' p i).
Proof.
  intros E. unfold tr. rewrite E. destruct (py_not p); [reflexivity |].
  destruct (dd_getitem dflt i (last_recv s')). by destruct (py_eqb _ _).
Qed.

End DuplicateSendLemmas.

(** DuplicateFilter.tx suppresses an immediately repeated send on the same
    interface: for a non-empty [p], from any state where [p] is not the last
    packet sent on [i] the first send returns [p]; a second consecutive send
    of [p] on [i] returns [None] from any state; a different non-empty
    packet sent on [i] in between resets suppression; and sends on another
    interface [j] are not suppressed by [i]'s history. *)
Theorem dup_tx_suppression (s : DuplicateFilter.t) (p q : bytes) (i j : iface) :
  p <> [] ->
  (DuplicateFilter.get (DuplicateFilter.last_sent s) i <> PyBytes p ->
     fst (DuplicateFilter.tx s (Some p) i) = Some p) /\
  fst (DuplicateFilter.tx (snd (DuplicateFilter.tx s (Some p) i)) (Some p) i) = None /\
  (q <> [] -> q <> p ->
     fst (DuplicateFilter.tx
            (snd (DuplicateFilter.tx (snd (DuplicateFilter.tx s (Some p) i)) (Some q) i))
            (Some p) i) = Some p) /\
  (i <> j -> DuplicateFilter.get (DuplicateFilter.last_sent s) j <> PyBytes p ->
     fst (DuplicateFilter.tx (snd (DuplicateFilter.tx s (Some p) i)) (Some p) j) = Some p).
Proof.
  intros Hp. split; [| split; [| split]].
  - intros H. rewrite dup_tx_result by exact Hp. by rewrite bool_decide_false.
  - rewrite dup_tx_result, dup_tx_last by exact Hp. repeat case_bool_decide; congruence.
  - intros Hq Hqp. rewrite dup_tx_result, dup_tx_last, dup_tx_last by assumption.
    repeat case_bool_decide; congruence.
  - intros Hij H. rewrite dup_tx_result, dup_tx_last by exact Hp.
    repeat case_bool_decide; congruence.
Qed.

Lemma dup_tx_suppression_witness :
  b_ "abc" <> [] /\
  fst (DuplicateFilter.tx (snd (DuplicateFilter.tx DuplicateFilter.init (Some (b_ "abc")) "eth0"))
         (Some (b_ "abc")) "eth0") = None.
Proof.
  split; [discriminate |].
  exact (proj1 (proj2 (dup_tx_suppression DuplicateFilter.init (b_ "abc") (b_ "xyz") "eth0" "eth1"
                         ltac:(discriminate)))).
Defined.

(** The two directions of DuplicateFilter are independent: a receive never
    changes [last_sent] nor what any later send returns, and a send never
    changes [last_recv] nor what any later receive returns.  So a packet
    received and then sent (or sent and then received) on the same
    interface is not treated as a duplicate of itself. *)
Theorem dup_directions_independent :
  (forall (s : DuplicateFilter.t) (p q : packet) (i j : iface),
     DuplicateFilter.last_sent (snd (DuplicateFilter.tr s p i)) = DuplicateFilter.last_sent s /\
     fst (DuplicateFilter.tx (snd (DuplicateFilter.tr s p i)) q j) = fst (DuplicateFilter.tx s q j)) /\
  (forall (s : DuplicateFilter.t) (p q : packet) (i j : iface),
     DuplicateFilter.last_recv (snd (DuplicateFilter.tx s p i)) = DuplicateFilter.last_recv s /\
     fst (DuplicateFilter.tr (snd (DuplicateFilter.tx s p i)) q j) = fst (DuplicateFilter.tr s q j)).
Proof.
  split; intros s p q i j; split.
  - apply dup_tr_keeps_sent.
  - apply dup_tx_depends_on_sent, dup_tr_keeps_sent.
  - apply dup_tx_keeps_recv.
  - apply dup_tr_depends_on_recv, dup_tx_keeps_recv.
Qed.

(** *** UniqueFilter: relaying, the tag, deduplication *)

Lemma length_list_ascii_of_string (u : string) :
  length (String.list_ascii_of_string u) = String.length u.
Proof. induction u as [|c u IH]; simpl; [reflexivity | by rewrite IH]. Qed.

Lemma tagged_nonempty (p : bytes) : take 5 p = UniqueFilter.marker -> p <> [].
Proof. intros H ->. discriminate. Qed.

(** A packet that already carries a tag is relayed by [tx] unchanged, and
    its identifier [packet[5:37]] is recorded, so the same instance's [tr]
    then drops that packet on any interface. *)
Theorem unique_relay_marks_seen (s : UniqueFilter.t) (p : bytes) (i j : iface) (now : string) :
  take 5 p = UniqueFilter.marker ->
  UniqueFilter.tx s (Some p) i now
    = (Some p, UniqueFilter.add (PyBytes (take 32 (drop 5 p))) s) /\
  fst (UniqueFilter.tr (snd (UniqueFilter.tx s (Some p) i now)) (Some p) j) = None.
Proof.
  intros Hm. assert (Hp := tagged_nonempty p Hm).
  assert (Htx : UniqueFilter.tx s (Some p) i now
                = (Some p, UniqueFilter.add (PyBytes (take 32 (drop 5 p))) s)).
  { unfold UniqueFilter.tx. rewrite py_not_some by exact Hp. rewrite default_some.
    rewrite bool_decide_true by congruence. reflexivity. }
  split; [exact Htx |]. rewrite Htx. simpl snd.
  unfold UniqueFilter.tr. rewrite py_not_some by exact Hp. rewrite default_some.
  rewrite bool_decide_true by congruence. rewrite seen_add.
  rewrite bool_decide_true by set_solver. reflexivity.
Qed.

Lemma unique_relay_marks_seen_witness :
  take 5 (b_ "HASH:0123456789abcdef0123456789abcdef; hi") = UniqueFilter.marker /\
  fst (UniqueFilter.tr
         (snd (UniqueFilter.tx (UniqueFilter.init 12345)
                 (Some (b_ "HASH:0123456789abcdef0123456789abcdef; hi")) "eth0" "0.0"))
         (Some (b_ "HASH:0123456789abcdef0123456789abcdef; hi")) "eth1") = None.
Proof.
  split; [reflexivity |].
  exact (proj2 (unique_relay_marks_seen (UniqueFilter.init 12345)
                  (b_ "HASH:0123456789abcdef0123456789abcdef; hi") "eth0" "eth1" "0.0"
                  ltac:(reflexivity))).
Defined.

(** The tag written by [tx] round-trips through the parsing done by [tr]
    and by the relay branch of [tx]: for an untagged non-empty packet the
    output starts with [HASH:], the slice [out[5:37]] is exactly the
    identifier [tx] generated, and [out[37:]] is [b"; "] followed by the
    payload; fed to the [tx] of any instance (as a relay), the output is
    returned unchanged and that identifier is recorded as [bytes]. *)
Theorem unique_tag_roundtrip (s s' : UniqueFilter.t) (p : bytes) (i i' : iface) (now now' : string) :
  p <> [] -> take 5 p <> UniqueFilter.marker ->
  let u := UniqueFilter.fresh_uuid s i now in
  let out := UniqueFilter.marker ++ b_ u ++ b_ "; " ++ p in
  fst (UniqueFilter.tx s (Some p) i now) = Some out /\
  take 5 out = UniqueFilter.marker /\
  take 32 (drop 5 out) = b_ u /\
  drop 37 out = b_ "; " ++ p /\
  UniqueFilter.tx s' (Some out) i' now' = (Some out, UniqueFilter.add (PyBytes (b_ u)) s').
Proof.
  intros Hp Hm u out.
  destruct (fresh_uuid_props s i now) as [L _]. fold u in L.
  assert (Lu : length (b_ u) = 32%nat).
  { unfold b_. rewrite length_map, length_list_ascii_of_string. exact L. }
  assert (Hid : take 32 (drop 5 out) = b_ u).
  { unfold out. rewrite drop_app_marker. apply take_app_length'. by rewrite Lu. }
  split; [| split; [apply take_app_marker | split; [exact Hid | split]]].
  - rewrite unique_tx_untagged by assumption. reflexivity.
  - unfold out. change 37%nat with (5 + 32)%nat. rewrite <- drop_drop.
    rewrite drop_app_marker. apply drop_app_length'. by rewrite Lu.
  - rewrite (proj1 (unique_relay_marks_seen s' out i' i' now' (take_app_marker _))).
    rewrite Hid. reflexivity.
Qed.

Lemma unique_tag_roundtrip_witness :
  b_ "hi" <> [] /\ take 5 (b_ "hi") <> UniqueFilter.marker /\
  take 32 (drop 5 (UniqueFilter.marker ++
                   b_ (UniqueFilter.fresh_uuid (UniqueFilter.init 12345) "eth0" "1700000000.123")
                   ++ b_ "; " ++ b_ "hi"))
    = b_ (UniqueFilter.fresh_uuid (UniqueFilter.init 12345) "eth0" "1700000000.123").
Proof.
  split; [discriminate | split; [discriminate |]].
  exact (proj1 (proj2 (proj2 (unique_tag_roundtrip (UniqueFilter.init 12345) (UniqueFilter.init 1)
           (b_ "hi") "eth0" "eth1" "1700000000.123" "0.0" ltac:(discriminate) ltac:(discriminate))))).
Defined.

(** [tr] deduplicates tagged packets by their identifier alone, across all
    interfaces: a tagged packet passes unchanged (and its identifier is
    recorded) exactly when the identifier [packet[5:37]] is not yet in
    [seen]; after [tr] has seen it, every packet whose first 37 bytes are
    the same (whatever its payload) is dropped on every interface. *)
Theorem unique_tr_dedup_by_id (s : UniqueFilter.t) (p q : bytes) (i j : iface) :
  take 5 p = UniqueFilter.marker ->
  UniqueFilter.tr s (Some p) i =
    (if bool_decide (PyBytes (take 32 (drop 5 p)) ∈ UniqueFilter.seen s) then (None, s)
     else (Some p, UniqueFilter.add (PyBytes (take 32 (drop 5 p))) s)) /\
  (take 37 q = take 37 p ->
     fst (UniqueFilter.tr (snd (UniqueFilter.tr s (Some p) i)) (Some q) j) = None).
Proof.
  intros Hm. assert (Hp := tagged_nonempty p Hm).
  assert (Htr : UniqueFilter.tr s (Some p) i =
    (if bool_decide (PyBytes (take 32 (drop 5 p)) ∈ UniqueFilter.seen s) then (None, s)
     else (Some p, UniqueFilter.add (PyBytes (take 32 (drop 5 p))) s))).
  { unfold UniqueFilter.tr. rewrite py_not_some by exact Hp. rewrite default_some.
    rewrite (bool_decide_true (UniqueFilter.marker = take 5 p)) by congruence. reflexivity. }
  split; [exact Htr |]. intros Hq.
  assert (Hq5 : take 5 q = UniqueFilter.marker).
  { assert (E5 : forall l : bytes, take 5 l = take 5 (take 37 l))
      by (intros l; rewrite take_take; reflexivity).
    rewrite <- Hm, E5, Hq, <- E5. reflexivity. }
  assert (Hqid : take 32 (drop 5 q) = take 32 (drop 5 p)).
  { rewrite !take_drop_commute. simpl Nat.add. by rewrite Hq. }
  assert (Hin : PyBytes (take 32 (drop 5 p)) ∈ UniqueFilter.seen (snd (UniqueFilter.tr s (Some p) i))).
  { rewrite Htr. case_bool_decide as E; cbn [snd]; [exact E | rewrite seen_add; set_solver]. }
  unfold UniqueFilter.tr at 1. rewrite py_not_some by exact (tagged_nonempty q Hq5).
  rewrite default_some, (bool_decide_true (UniqueFilter.marker = take 5 q)) by congruence.
  rewrite Hqid, bool_decide_true by exact Hin. reflexivity.
Qed.

Lemma unique_tr_dedup_by_id_witness :
  take 5 (b_ "HASH:0123456789abcdef0123456789abcdef; one") = UniqueFilter.marker /\
  take 37 (b_ "HASH:0123456789abcdef0123456789abcdef; two")
    = take 37 (b_ "HASH:0123456789abcdef0123456789abcdef; one") /\
  fst (UniqueFilter.tr
         (snd (UniqueFilter.tr (UniqueFilter.init 12345)
                 (Some (b_ "HASH:0123456789abcdef0123456789abcdef; one")) "eth0"))
         (Some (b_ "HASH:0123456789abcdef0123456789abcdef; two")) "eth1") = None.
Proof.
  split; [reflexivity | split; [reflexivity |]].
  exact (proj2 (unique_tr_dedup_by_id (UniqueFilter.init 12345)
                  (b_ "HASH:0123456789abcdef0123456789abcdef; one")
                  (b_ "HASH:0123456789abcdef0123456789abcdef; two") "eth0" "eth1"
                  ltac:(reflexivity)) ltac:(reflexivity)).
Defined.

(** *** StringFilter with a [bytes] pattern *)

(** With a [bytes] pattern, [match] passes a non-empty packet exactly when
    the pattern occurs in it as a contiguous run and drops it otherwise;
    [dontmatch] does the opposite; neither raises.  In particular the
    empty pattern [b""] occurs in every packet: [match(b"")] passes every
    non-empty packet and [dontmatch(b"")] drops them all. *)
Theorem string_filter_bytes_semantics (pat p : bytes) (i : iface) :
  p <> [] ->
  (StringFilter.tr (StringFilter.match_ (PyBytes pat) false) (Some p) i = inr (Some p)
     <-> exists a b, p = a ++ pat ++ b) /\
  (StringFilter.tr (StringFilter.match_ (PyBytes pat) false) (Some p) i = inr None
     <-> ~ exists a b, p = a ++ pat ++ b) /\
  (StringFilter.tr (StringFilter.dontmatch (PyBytes pat)) (Some p) i = inr (Some p)
     <-> ~ exists a b, p = a ++ pat ++ b) /\
  (StringFilter.tr (StringFilter.dontmatch (PyBytes pat)) (Some p) i = inr None
     <-> exists a b, p = a ++ pat ++ b) /\
  StringFilter.tr (StringFilter.match_ (PyBytes []) false) (Some p) i = inr (Some p) /\
  StringFilter.tr (StringFilter.dontmatch (PyBytes [])) (Some p) i = inr None.
Proof.
  intros Hp. unfold StringFilter.dontmatch.
  rewrite !string_filter_bytes_pattern by exact Hp.
  assert (E0 : is_substring [] p = true) by (apply is_substring_spec; by exists [], p).
  rewrite E0. split; [| split; [| split; [| split; [| split]]]]; try reflexivity;
    rewrite <- is_substring_spec; destruct (is_substring pat p); simpl;
    split; intros H; try congruence; try done; exfalso; by apply H.
Qed.

Lemma string_filter_bytes_semantics_witness :
  b_ "xfoox" <> [] /\
  StringFilter.tr (StringFilter.match_ (PyBytes (b_ "foo")) false) (Some (b_ "xfoox")) "eth0"
    = inr (Some (b_ "xfoox")).
Proof.
  split; [discriminate |].
  apply (proj1 (string_filter_bytes_semantics (b_ "foo") (b_ "xfoox") "eth0" ltac:(discriminate))).
  exists (b_ "x"), (b_ "x"). reflexivity.
Defined.

(** *** No filter rewrites a packet except UniqueFilter.tx *)

(** Every receive, and the sends of DuplicateFilter and LoopbackFilter,
    return either [None] or the packet they were given, never a modified
    packet; LoopbackFilter.tx never drops a non-empty packet; StringFilter
    either raises [TypeError] or returns [None] or its input. *)
Theorem filters_never_rewrite :
  (forall (s : DuplicateFilter.t) (p : packet) (i : iface),
     (fst (DuplicateFilter.tr s p i) = None \/ fst (DuplicateFilter.tr s p i) = p) /\
     (fst (DuplicateFilter.tx s p i) = None \/ fst (DuplicateFilter.tx s p i) = p)) /\
  (forall (hash : bytes -> Z) (s : LoopbackFilter.t) (p : packet) (i : iface),
     (fst (LoopbackFilter.tr hash s p i) = None \/ fst (LoopbackFilter.tr hash s p i) = p) /\
     fst (LoopbackFilter.tx hash s p i) = (if py_not p then None else p)) /\
  (forall (s : UniqueFilter.t) (p : packet) (i : iface),
     fst (UniqueFilter.tr s p i) = None \/ fst (UniqueFilter.tr s p i) = p) /\
  (forall (f : StringFilter.t) (p : packet) (i : iface),
     StringFilter.tr f p i = inl TypeError \/ StringFilter.tr f p i = inr None \/
     StringFilter.tr f p i = inr p).
Proof.
  split; [| split; [| split]].
  - intros s p i. unfold DuplicateFilter.tr, DuplicateFilter.tx.
    split; destruct (py_not p); [by left | | by left |];
      [destruct (dd_getitem _ i (DuplicateFilter.last_recv s))
      | destruct (dd_getitem _ i (DuplicateFilter.last_sent s))];
      destruct (py_eqb _ _); simpl; auto.
  - intros hash s p i. split; [| apply tx_result].
    unfold LoopbackFilter.tr. destruct (py_not p); [by left |].
    destruct (dd_getitem 0 _ _) as [c m]. destruct (0 <? c);
      [destruct (dd_getitem 0 _ m); by left | by right].
  - intros s p i. unfold UniqueFilter.tr. destruct (py_not p); [by left |].
    repeat case_bool_decide; simpl; auto.
  - intros f p i. unfold StringFilter.tr. destruct (py_not p); [by (right; left) |].
    destruct (py_in_bytes _ _) as [[]|found]; [by left |].
    destruct (StringFilter.inverse f), found; simpl; auto.
Qed.
